(** * App 2 (Flask status service): a shallow embedding of [docker/app2/app.py]

    The service is a handful of view functions that build JSON documents
    from process-wide constants, wall-clock readings and the request, three
    error handlers, and two request hooks.  This file embeds them as Rocq
    functions and proves the properties the specification states of them.

    Conventions of the embedding.
    - Python numbers.  An [int] is a [Z].  A [float] is modelled by the exact
      rational it denotes, a [Q]; arithmetic on it is exact, so rounding of
      binary floating point is outside the model.
    - Python [dict]s that become JSON objects are association lists in
      insertion order; request and response headers are a [gmap] from the
      header name as the source spells it.
    - [print] appends a line to the process output stream, which is threaded
      through the functions that write to it.
    - Reads of the outside world ([time.time()], [datetime.utcnow()],
      [sys.version], ...) are explicit arguments. *)

From Stdlib Require Import ZArith QArith Qround Qabs Lqa String Ascii List Lia.
From Stdlib Require Import DecimalString DecimalPos.
From stdpp Require Import base strings gmap.

Local Open Scope Z_scope.

(** ** Python primitives used by the source *)

Module Py.

(** [x // y]: the floor of the quotient (a number with an integral value). *)
Definition floordiv (x y : Q) : Q := inject_Z (Qfloor (x / y)).

(** [x % y]: the remainder that goes with [//], [x - y * (x // y)]. *)
Definition mod_ (x y : Q) : Q := (x - y * floordiv x y)%Q.

(** [int(x)]: truncation toward zero. *)
Definition int (x : Q) : Z := Z.quot (Qnum x) (Zpos (Qden x)).

(** [str(n)] and [f"{n}"] for an [int]: decimal digits, ["-"] when negative. *)
Definition str (n : Z) : string := NilZero.string_of_int (Z.to_int n).

(** [sep.join(parts)]. *)
Definition join (sep : string) (parts : list string) : string :=
  String.concat sep parts.

(** Rounding of a rational to the nearest integer, ties to the even one. *)
Definition round_half_even (x : Q) : Z :=
  let f := Qfloor x in
  match Qcompare (x - inject_Z f) (1 # 2) with
  | Lt => f
  | Gt => f + 1
  | Eq => if Z.even f then f else f + 1
  end.

(** [round(x, 2)]: the nearest multiple of 1/100. *)
Definition round2 (x : Q) : Q := round_half_even (x * 100) # 100.

(** One decimal digit as a character. *)
Definition digit (d : Z) : ascii := ascii_of_nat (48 + Z.to_nat d).

(** [f"{x:.3f}"]: sign, integer part, a point and exactly three decimals,
    the value rounded to the nearest thousandth. *)
Definition format_3f (x : Q) : string :=
  let n := round_half_even (Qabs x * 1000) in
  let sign := match Qcompare x 0 with Lt => "-" | _ => EmptyString end in
  let frac := n mod 1000 in
  sign +:+ str (n / 1000) +:+ "."
    +:+ String (digit (frac / 100))
          (String (digit (frac / 10 mod 10))
             (String (digit (frac mod 10)) EmptyString)).

(** An exception object; [str(error)] is its message. *)
Inductive exn := Exception (message : string).

Definition str_exn (error : exn) : string :=
  match error with Exception message => message end.

(** What a call gives: a value, or a raised exception. *)
Inductive result (A : Type) := Return (a : A) | Raise (error : exn).
Arguments Return {A} a.
Arguments Raise {A} error.

End Py.

(** ** [datetime] values and [isoformat()] (Python standard library) *)

Module Datetime.

Record t := {
  year : Z; month : Z; day : Z;
  hour : Z; minute : Z; second : Z; microsecond : Z
}.

(** The [w] low decimal digits of [n], most significant first: ["%0wd"]
    for a field that fits in [w] digits. *)
Fixpoint zpad (w : nat) (n : Z) : string :=
  match w with
  | O => EmptyString
  | S w' => zpad w' (n / 10) +:+ String (Py.digit (n mod 10)) EmptyString
  end.

(** [dt.isoformat()] of a naive datetime: [YYYY-MM-DDTHH:MM:SS], followed
    by [.ffffff] when the microsecond field is not zero. *)
Definition isoformat (dt : t) : string :=
  zpad 4 (year dt) +:+ "-" +:+ zpad 2 (month dt) +:+ "-" +:+ zpad 2 (day dt)
    +:+ "T" +:+ zpad 2 (hour dt) +:+ ":" +:+ zpad 2 (minute dt)
    +:+ ":" +:+ zpad 2 (second dt)
    +:+ (if microsecond dt =? 0 then EmptyString
         else "." +:+ zpad 6 (microsecond dt)).

End Datetime.

(** ** Configuration and application metadata (lines 24-32) *)

Record Config := {
  PORT : Z;                (* int(os.getenv("PORT", 5000)) *)
  FLASK_ENV : string;      (* os.getenv("FLASK_ENV", "development") *)
  LOG_LEVEL : string;      (* os.getenv("LOG_LEVEL", "info") *)
  START_TIME : Q           (* time.time() at import *)
}.

Definition APP_VERSION : string := "1.0.0".
Definition APP_NAME : string := "app2-api-service".

(** ** Utility functions *)

(** [get_uptime]: [now] is the reading of [time.time()] at the call. *)
Definition get_uptime (cfg : Config) (now : Q) : Q := (now - START_TIME cfg)%Q.

(** The four unit values [format_uptime] computes (lines 46-49). *)
Definition format_uptime_units (seconds : Q) : Z * Z * Z * Z :=
  let days := Py.int (Py.floordiv seconds 86400) in
  let hours := Py.int (Py.floordiv (Py.mod_ seconds 86400) 3600) in
  let minutes := Py.int (Py.floordiv (Py.mod_ seconds 3600) 60) in
  let secs := Py.int (Py.mod_ seconds 60) in
  (days, hours, minutes, secs).

(** The list [parts] built from the unit values (lines 51-58). *)
Definition format_uptime_parts (u : Z * Z * Z * Z) : list string :=
  let '(days, hours, minutes, secs) := u in
  let parts := [] in
  let parts := if days >? 0 then parts ++ [Py.str days +:+ "d"] else parts in
  let parts := if hours >? 0 then parts ++ [Py.str hours +:+ "h"] else parts in
  let parts := if minutes >? 0 then parts ++ [Py.str minutes +:+ "m"] else parts in
  let parts := parts ++ [Py.str secs +:+ "s"] in
  parts.

Definition format_uptime (seconds : Q) : string :=
  Py.join " " (format_uptime_parts (format_uptime_units seconds)).


(** ** JSON documents, requests and responses *)

#[warnings="-register-all"] Inductive json :=
| JBool (b : bool)
| JInt (n : Z)
| JFloat (x : Q)
| JStr (s : string)
| JList (items : list json)
| JDict (fields : list (string * json)).

(** [d[key]] on a JSON object, [None] when the key is absent or the value is
    not an object. *)
Fixpoint assoc (key : string) (fields : list (string * json)) : option json :=
  match fields with
  | [] => None
  | (k, v) :: rest => if String.eqb k key then Some v else assoc key rest
  end.

Definition jget (key : string) (doc : json) : option json :=
  match doc with
  | JDict fields => assoc key fields
  | _ => None
  end.

(** The keys of a JSON object, in order. *)
Definition jkeys (doc : json) : list string :=
  match doc with
  | JDict fields => map fst fields
  | _ => []
  end.

(** The request object: [start_time] is the attribute [before_request]
    sets, absent ([None]) until then. *)
Record Request := {
  method : string;
  path : string;
  headers : gmap string string;
  start_time : option Q
}.

Record Response := {
  body : json;
  status_code : Z;
  resp_headers : gmap string string
}.

(** [jsonify(doc)]: a 200 response with a JSON body. *)
Definition jsonify (doc : json) : Response :=
  {| body := doc; status_code := 200;
     resp_headers := {[ "Content-Type" := "application/json" ]} |}.

(** [return response, code] from a view or handler. *)
Definition with_status (r : Response) (code : Z) : Response :=
  {| body := body r; status_code := code; resp_headers := resp_headers r |}.

(** What the views read from the interpreter and the operating system. *)
Record Host := {
  sys_version : string;            (* sys.version *)
  python_version : string;         (* sys.version.split()[0] *)
  platform_platform : string;      (* platform.platform() *)
  sys_executable : string;         (* sys.executable *)
  os_getcwd : string;              (* os.getcwd() *)
  fromtimestamp : Q -> Datetime.t; (* datetime.fromtimestamp *)
  Flask_version : option string    (* Flask.__version__, when the class has it *)
}.

(** The process output stream: the lines printed so far, oldest first. *)
Definition Stdout := list string.

Definition print (line : string) (out : Stdout) : Stdout := out ++ [line].

(** [datetime.utcnow().isoformat() + "Z"], [utcnow] being the reading of the
    clock at the call. *)
Definition timestamp (utcnow : Datetime.t) : string :=
  Datetime.isoformat utcnow +:+ "Z".

(** [log_request] (lines 63-69). *)
Definition log_request (req : Request) (out : Stdout) : Stdout :=
  let forwarded_by := default "unknown" (headers req !! "X-Forwarded-By") in
  print ("[App2] " +:+ method req +:+ " " +:+ path req
           +:+ " - Forwarded by: " +:+ forwarded_by) out.

(** ** Routes *)

Section Views.

Variable cfg : Config.
Variable host : Host.

(** [home] (lines 77-101). *)
Definition home (req : Request) (utcnow : Datetime.t) (out : Stdout)
  : Py.result Response * Stdout :=
  let out := log_request req out in
  (Py.Return (jsonify (JDict [
     ("service", JStr APP_NAME);
     ("version", JStr APP_VERSION);
     ("message", JStr "App 2 API Service - Limbic Capital DevOps Assessment");
     ("status", JStr "running");
     ("timestamp", JStr (timestamp utcnow));
     ("endpoints", JList [
        JDict [("path", JStr "/"); ("method", JStr "GET");
               ("description", JStr "Service information")];
        JDict [("path", JStr "/status"); ("method", JStr "GET");
               ("description", JStr "Service status")];
        JDict [("path", JStr "/health"); ("method", JStr "GET");
               ("description", JStr "Detailed health check")];
        JDict [("path", JStr "/info"); ("method", JStr "GET");
               ("description", JStr "System information")]]);
     ("protection", JStr "Cloudflare Zero Trust Access")])), out).

(** [status] (lines 104-121); [now] is the reading of [time.time()] inside
    [get_uptime]. *)
Definition status (req : Request) (now : Q) (utcnow : Datetime.t) (out : Stdout)
  : Py.result Response * Stdout :=
  let out := log_request req out in
  let uptime_seconds := get_uptime cfg now in
  (Py.Return (jsonify (JDict [
     ("service", JStr "app2");
     ("status", JStr "ok");
     ("timestamp", JStr (timestamp utcnow));
     ("uptime_seconds", JFloat (Py.round2 uptime_seconds));
     ("uptime", JStr (format_uptime uptime_seconds));
     ("version", JStr APP_VERSION);
     ("environment", JStr (FLASK_ENV cfg))])), out).

(** [health] (lines 124-155). *)
Definition health (req : Request) (now : Q) (utcnow : Datetime.t) (out : Stdout)
  : Py.result Response * Stdout :=
  let out := log_request req out in
  let uptime_seconds := get_uptime cfg now in
  (Py.Return (jsonify (JDict [
     ("status", JStr "healthy");
     ("service", JStr APP_NAME);
     ("version", JStr APP_VERSION);
     ("timestamp", JStr (timestamp utcnow));
     ("uptime", JDict [
        ("seconds", JFloat (Py.round2 uptime_seconds));
        ("formatted", JStr (format_uptime uptime_seconds));
        ("started_at",
         JStr (Datetime.isoformat (fromtimestamp host (START_TIME cfg)) +:+ "Z"))]);
     ("environment", JDict [
        ("flask_env", JStr (FLASK_ENV cfg));
        ("python_version", JStr (python_version host));
        ("platform", JStr (platform_platform host));
        ("log_level", JStr (LOG_LEVEL cfg))]);
     ("system", JDict [
        ("python_path", JStr (sys_executable host));
        ("working_directory", JStr (os_getcwd host))]);
     ("checks", JDict [
        ("api_responsive", JBool true);
        ("can_connect", JBool true);
        ("environment_loaded", JBool true)])])), out).

(** [info] (lines 158-195).  The document reads the attribute
    [Flask.__version__]; where the class has none the lookup raises
    [AttributeError] while the document is built, after the request was
    logged. *)
Definition info (req : Request) (out : Stdout) : Py.result Response * Stdout :=
  let out := log_request req out in
  match Flask_version host with
  | None =>
      (Py.Raise (Py.Exception
         "type object 'Flask' has no attribute '__version__'"), out)
  | Some flask_version =>
      (Py.Return (jsonify (JDict [
         ("service_name", JStr APP_NAME);
         ("version", JStr APP_VERSION);
         ("description",
          JStr "Python Flask API service for Limbic Capital DevOps Assessment");
         ("author", JStr "Limbic Capital");
         ("environment", JStr (FLASK_ENV cfg));
         ("port", JInt (PORT cfg));
         ("python_version", JStr (sys_version host));
         ("flask_version", JStr flask_version);
         ("architecture", JDict [
            ("layer", JStr "Application Layer");
            ("host", JStr "LXD container (app-host)");
            ("runtime", JStr "Docker");
            ("network", JStr "internal_net (Docker bridge)");
            ("exposure", JStr "Cloudflare Tunnel with Zero Trust Access");
            ("communication", JStr "Called by app1 via Docker DNS")]);
         ("security", JDict [
            ("authentication", JStr "Cloudflare Access");
            ("encryption", JStr "TLS via Cloudflare");
            ("non_root_user", JBool true);
            ("minimal_privileges", JBool true)]);
         ("features", JList [
            JStr "RESTful API";
            JStr "JSON responses";
            JStr "Health monitoring";
            JStr "Service-to-service communication";
            JStr "Cloudflare Zero Trust integration"])])), out)
  end.

(** [ping] (lines 198-209). *)
Definition ping (req : Request) (utcnow : Datetime.t) (out : Stdout)
  : Py.result Response * Stdout :=
  let out := log_request req out in
  (Py.Return (jsonify (JDict [
     ("message", JStr "pong");
     ("service", JStr "app2");
     ("timestamp", JStr (timestamp utcnow))])), out).

(** ** Error handlers *)

(** [not_found] (lines 217-234). *)
Definition not_found (error : Py.exn) (req : Request) (utcnow : Datetime.t)
  : Response :=
  with_status (jsonify (JDict [
     ("error", JStr "Not Found");
     ("message",
      JStr ("Route " +:+ method req +:+ " " +:+ path req +:+ " not found"));
     ("status_code", JInt 404);
     ("timestamp", JStr (timestamp utcnow));
     ("available_endpoints", JList [
        JStr "GET /";
        JStr "GET /status";
        JStr "GET /health";
        JStr "GET /info";
        JStr "GET /ping"])])) 404.

(** [internal_error] (lines 237-247). *)
Definition internal_error (error : Py.exn) (utcnow : Datetime.t) : Response :=
  with_status (jsonify (JDict [
     ("error", JStr "Internal Server Error");
     ("message", JStr "Something went wrong");
     ("status_code", JInt 500);
     ("timestamp", JStr (timestamp utcnow))])) 500.

(** [handle_exception] (lines 250-264). *)
Definition handle_exception (error : Py.exn) (utcnow : Datetime.t) (out : Stdout)
  : Response * Stdout :=
  let out := print ("[App2] Error: " +:+ Py.str_exn error) out in
  (with_status (jsonify (JDict [
     ("error", JStr "Internal Server Error");
     ("message",
      JStr (if String.eqb (FLASK_ENV cfg) "development"
            then Py.str_exn error
            else "Something went wrong"));
     ("status_code", JInt 500);
     ("timestamp", JStr (timestamp utcnow))])) 500, out).

(** ** Request/response middleware *)

(** [before_request] (lines 272-275): [now] is the reading of [time.time()]. *)
Definition before_request (now : Q) (req : Request) : Request :=
  {| method := method req; path := path req; headers := headers req;
     start_time := Some now |}.

(** [after_request] (lines 278-297): [now] is the reading of [time.time()],
    taken only when the request carries [start_time]. *)
Definition after_request (req : Request) (now : Q) (response : Response)
    (out : Stdout) : Response * Stdout :=
  let hs := resp_headers response in
  let hs := <["X-Service" := APP_NAME]> hs in
  let hs := <["X-Version" := APP_VERSION]> hs in
  let hs :=
    match start_time req with
    | Some t0 =>
        let duration := (now - t0)%Q in
        <["X-Response-Time" := Py.format_3f duration +:+ "s"]> hs
    | None => hs
    end in
  let out :=
    if String.eqb (FLASK_ENV cfg) "development"
    then print ("[App2] Response: " +:+ Py.str (status_code response) +:+ " - "
                  +:+ default "N/A" (hs !! "X-Response-Time")) out
    else out in
  ({| body := body response; status_code := status_code response;
      resp_headers := hs |}, out).

End Views.

(** ** The request cycle

    The decorators register the views, the error handlers and the two hooks
    with the framework.  [Routing] is what the framework's router decides for
    a request, and [route] the decision it takes with the five rules the
    source registers. *)

(** The five [@app.route] rules. *)
Inductive Endpoint := Home | Status | Health | Info | Ping.

Inductive Routing :=
| Matched (e : Endpoint)        (* a rule matched: its view runs *)
| NoMatch (error : Py.exn)      (* the router raised 404 Not Found *)
| ServerError (error : Py.exn)  (* a 500 Internal Server Error was raised *)
| NotAllowed (error : Py.exn).  (* the router raised 405 Method Not Allowed *)

(** The URL map the decorators build (lines 77, 104, 124, 158, 198): one
    rule per path, none with a [methods] argument, so each takes GET, to
    which the framework adds HEAD and OPTIONS. *)
Definition url_map : list (string * Endpoint) :=
  [("/", Home); ("/status", Status); ("/health", Health); ("/info", Info);
   ("/ping", Ping)].

Fixpoint rule_for (p : string) (rules : list (string * Endpoint))
  : option Endpoint :=
  match rules with
  | [] => None
  | (rule, e) :: rest => if String.eqb rule p then Some e else rule_for p rest
  end.

(** A path with every run of slashes merged into one: the router tries it
    when the path as sent matches no rule. *)
Fixpoint merge_slashes (p : string) : string :=
  match p with
  | EmptyString => EmptyString
  | String c rest =>
      match rest with
      | EmptyString => String c EmptyString
      | String c' _ =>
          if (Ascii.eqb c "/" && Ascii.eqb c' "/")%bool then merge_slashes rest
          else String c (merge_slashes rest)
      end
  end.

(** The decision of the router.  A path that is a rule: GET and HEAD run the
    view, any other method but OPTIONS raises 405.  A path that is no rule,
    also with its slashes merged, raises 404.  [None] is for the two answers
    the framework gives without any code of the source deciding them: its
    own answer to OPTIONS, and the redirect to the path with slashes merged. *)
Definition route (req : Request) : option Routing :=
  match rule_for (path req) url_map with
  | Some e =>
      if (String.eqb (method req) "GET" || String.eqb (method req) "HEAD")%bool
      then Some (Matched e)
      else if String.eqb (method req) "OPTIONS" then None
      else Some (NotAllowed (Py.Exception
             "405 Method Not Allowed: The method is not allowed for the requested URL."))
  | None =>
      match rule_for (merge_slashes (path req)) url_map with
      | Some _ => None
      | None =>
          Some (NoMatch (Py.Exception
            "404 Not Found: The requested URL was not found on the server. If you entered the URL manually please check your spelling and try again."))
      end
  end.

(** The clock readings of one request. *)
Record Clock := {
  t_before : Q;          (* time.time() in before_request *)
  t_view : Q;            (* time.time() in get_uptime *)
  utcnow : Datetime.t;   (* datetime.utcnow() *)
  t_after : Q            (* time.time() in after_request *)
}.

Section Cycle.

Variable cfg : Config.
Variable host : Host.

Definition call_view (e : Endpoint) (req : Request) (clk : Clock) (out : Stdout)
  : Py.result Response * Stdout :=
  match e with
  | Home => home req (utcnow clk) out
  | Status => status cfg req (t_view clk) (utcnow clk) out
  | Health => health cfg host req (t_view clk) (utcnow clk) out
  | Info => info cfg host req out
  | Ping => ping req (utcnow clk) out
  end.

(** The view's response, or the response of the error handler registered
    for what was raised: [errorhandler(404)], [errorhandler(500)], and
    [errorhandler(Exception)] for an exception a view raises and for the 405
    of the router, for whose code no handler is registered. *)
Definition dispatch_request (routing : Routing) (req : Request) (clk : Clock)
    (out : Stdout) : Response * Stdout :=
  match routing with
  | Matched e =>
      match call_view e req clk out with
      | (Py.Return response, out) => (response, out)
      | (Py.Raise error, out) => handle_exception cfg error (utcnow clk) out
      end
  | NoMatch error => (not_found error req (utcnow clk), out)
  | ServerError error => (internal_error error (utcnow clk), out)
  | NotAllowed error => handle_exception cfg error (utcnow clk) out
  end.

(** One request: [before_request], the view or error handler, then
    [after_request] on the response. *)
Definition handle_request (routing : Routing) (req : Request) (clk : Clock)
    (out : Stdout) : Response * Stdout :=
  let req := before_request (t_before clk) req in
  let '(response, out) := dispatch_request routing req clk out in
  after_request cfg req (t_after clk) response out.


End Cycle.


(** ** Notions the properties are stated with *)

(** The decomposition the specification words: days, then hours of the
    remainder, minutes of what remains, and the seconds left over. *)
Definition decompose (n : Z) : Z * Z * Z * Z :=
  let days := n / 86400 in
  let r := n mod 86400 in
  let hours := r / 3600 in
  let r := r mod 3600 in
  let minutes := r / 60 in
  let r := r mod 60 in
  (days, hours, minutes, r).

(** The units a rendering shows, following the words "a unit of days, hours
    or minutes is shown exactly when it is not zero, the seconds always". *)
Definition shown_units (u : Z * Z * Z * Z) : list string :=
  let '(days, hours, minutes, secs) := u in
  map (fun vs : Z * string => Py.str (fst vs) +:+ snd vs)
      (List.filter (fun vs : Z * string => negb (fst vs =? 0))
         [(days, "d"); (hours, "h"); (minutes, "m")])
  ++ [Py.str secs +:+ "s"].

(** A decimal digit character. *)
Definition is_digit (c : ascii) : bool :=
  let n := nat_of_ascii c in ((48 <=? n)%nat && (n <=? 57)%nat)%bool.

Fixpoint all_digits (s : string) : bool :=
  match s with
  | EmptyString => true
  | String c rest => is_digit c && all_digits rest
  end.

(** Digits up to a point, then exactly three digits and the letter [s]. *)
Fixpoint point_3_digits_s (v : string) : bool :=
  match v with
  | EmptyString => false
  | String c rest =>
      if Ascii.eqb c "."
      then match rest with
           | String d1 (String d2 (String d3 (String e EmptyString))) =>
               is_digit d1 && is_digit d2 && is_digit d3 && Ascii.eqb e "s"
           | _ => false
           end
      else is_digit c && point_3_digits_s rest
  end.

Definition unsigned_3_decimals_s (v : string) : bool :=
  match v with
  | EmptyString => false
  | String c rest => is_digit c && point_3_digits_s rest
  end.

(** Seconds with exactly three decimals and the suffix [s]: an optional
    minus sign, at least one digit, a point, three digits, [s]. *)
Definition is_seconds_3_decimals (v : string) : bool :=
  match v with
  | EmptyString => false
  | String c rest =>
      if Ascii.eqb c "-" then unsigned_3_decimals_s rest
      else unsigned_3_decimals_s v
  end.

(** Fixed-width patterns of digits and literal characters. *)
Inductive tok := Dig | Lit (c : ascii).

Fixpoint matches (p : list tok) (s : string) : bool :=
  match p, s with
  | [], EmptyString => true
  | Dig :: p', String c s' => is_digit c && matches p' s'
  | Lit a :: p', String c s' => Ascii.eqb a c && matches p' s'
  | _, _ => false
  end.

(** [YYYY-MM-DDTHH:MM:SS] *)
Definition iso_date_time : list tok :=
  [Dig; Dig; Dig; Dig; Lit "-"; Dig; Dig; Lit "-"; Dig; Dig; Lit "T";
   Dig; Dig; Lit ":"; Dig; Dig; Lit ":"; Dig; Dig].

(** An ISO-8601 instant in UTC: date and time of day to the second, an
    optional fraction of six digits, and the zone designator [Z]. *)
Definition is_iso8601_utc (s : string) : bool :=
  matches (iso_date_time ++ [Lit "Z"]) s
  || matches (iso_date_time ++ [Lit "."; Dig; Dig; Dig; Dig; Dig; Dig; Lit "Z"]) s.

(** The line [log_request] prints for a request. *)
Definition request_line (req : Request) : string :=
  "[App2] " +:+ method req +:+ " " +:+ path req +:+ " - Forwarded by: "
    +:+ match headers req !! "X-Forwarded-By" with
        | Some by_whom => by_whom
        | None => "unknown"
        end.

(** Reading a rendering of [format_uptime] back: digits build a number, a
    unit letter adds that number of days, hours, minutes or seconds to the
    total, spaces separate.  Used to show that the rendering loses nothing
    but the fraction of a second. *)
Definition digit_value (c : ascii) : Z := Z.of_nat (nat_of_ascii c) - 48.

Definition unit_seconds (c : ascii) : option Z :=
  if Ascii.eqb c "d" then Some 86400
  else if Ascii.eqb c "h" then Some 3600
  else if Ascii.eqb c "m" then Some 60
  else if Ascii.eqb c "s" then Some 1
  else None.

Fixpoint read_uptime (s : string) (acc total : Z) : option Z :=
  match s with
  | EmptyString => Some total
  | String c rest =>
      if is_digit c then read_uptime rest (10 * acc + digit_value c) total
      else if Ascii.eqb c " " then read_uptime rest acc total
      else match unit_seconds c with
           | Some w => read_uptime rest 0 (total + acc * w)
           | None => None
           end
  end.

(** The number a string of decimal digits adds to an accumulator. *)
Fixpoint uint_acc (u : Decimal.uint) (acc : Z) : Z :=
  match u with
  | Decimal.Nil => acc
  | Decimal.D0 u => uint_acc u (10 * acc + 0)
  | Decimal.D1 u => uint_acc u (10 * acc + 1)
  | Decimal.D2 u => uint_acc u (10 * acc + 2)
  | Decimal.D3 u => uint_acc u (10 * acc + 3)
  | Decimal.D4 u => uint_acc u (10 * acc + 4)
  | Decimal.D5 u => uint_acc u (10 * acc + 5)
  | Decimal.D6 u => uint_acc u (10 * acc + 6)
  | Decimal.D7 u => uint_acc u (10 * acc + 7)
  | Decimal.D8 u => uint_acc u (10 * acc + 8)
  | Decimal.D9 u => uint_acc u (10 * acc + 9)
  end.

(** [os.getenv(key, default)] on the environment of the process. *)
Definition getenv (environ : gmap string string) (key dflt : string) : string :=
  default dflt (environ !! key).

(** The configuration read at import (lines 25-27, 32).  [port] is the value
    [int(...)] gave for the port, [start] the reading of [time.time()]. *)
Definition configuration (environ : gmap string string) (port : Z) (start : Q)
  : Config :=
  {| PORT := port;
     FLASK_ENV := getenv environ "FLASK_ENV" "development";
     LOG_LEVEL := getenv environ "LOG_LEVEL" "info";
     START_TIME := start |}.







(** Sample inputs for running the cycle. *)
Definition example_cfg (env : string) : Config :=
  {| PORT := 5000; FLASK_ENV := env; LOG_LEVEL := "info";
     START_TIME := 1700000000 |}.

Definition example_host (flask_version : option string) : Host :=
  {| sys_version := "3.11.4 (main)"; python_version := "3.11.4";
     platform_platform := "Linux"; sys_executable := "/usr/local/bin/python";
     os_getcwd := "/app";
     fromtimestamp := fun _ =>
       {| Datetime.year := 2023; Datetime.month := 11; Datetime.day := 14;
          Datetime.hour := 22; Datetime.minute := 13; Datetime.second := 20;
          Datetime.microsecond := 0 |};
     Flask_version := flask_version |}.

Definition example_clock : Clock :=
  {| t_before := 1700003661; t_view := 17000036615 # 10;
     utcnow := {| Datetime.year := 2023; Datetime.month := 11;
                  Datetime.day := 14; Datetime.hour := 23;
                  Datetime.minute := 14; Datetime.second := 21;
                  Datetime.microsecond := 500 |};
     t_after := 1700003661012 # 1000 |}.

Definition example_request (m p : string) : Request :=
  {| method := m; path := p; headers := ∅; start_time := None |}.

(** * Properties *)

(** ** Arithmetic of the Python primitives *)

Section PyFacts.

Lemma Qfloor_div_Z (x : Q) (n : Z) :
  0 < n -> Qfloor (x / inject_Z n) = Qfloor x / n.
Proof.
  intros Hn. destruct x as [p q].
  destruct n as [|n|n]; try lia.
  assert (E : (p # q) / inject_Z (Z.pos n) == p # (q * n)).
  { unfold Qdiv, Qinv, Qmult, Qeq, inject_Z; simpl. lia. }
  rewrite E. simpl. rewrite Pos2Z.inj_mul.
  rewrite Z.div_div by lia. reflexivity.
Qed.

Lemma Qfloor_sub_Z (x : Q) (k : Z) :
  Qfloor (x - inject_Z k) = Qfloor x - k.
Proof.
  destruct x as [p q].
  assert (E : (p # q) - inject_Z k == (p + (- k) * Z.pos q) # q).
  { unfold Qminus, Qplus, Qopp, Qeq, inject_Z; simpl. lia. }
  rewrite E. simpl. rewrite Z.div_add by lia. lia.
Qed.

Lemma int_inject_Z (z : Z) : Py.int (inject_Z z) = z.
Proof. unfold Py.int; simpl. apply Z.quot_1_r. Qed.

Lemma int_nonneg (x : Q) : (0 <= x)%Q -> Py.int x = Qfloor x.
Proof.
  destruct x as [p q]. unfold Qle, Py.int; simpl. intros H.
  apply Z.quot_div_nonneg; lia.
Qed.

Lemma Qfloor_mod (x : Q) (n : Z) :
  0 < n -> Qfloor (Py.mod_ x (inject_Z n)) = Qfloor x mod n.
Proof.
  intros Hn. unfold Py.mod_, Py.floordiv.
  rewrite Qfloor_div_Z by assumption.
  assert (E : (inject_Z n * inject_Z (Qfloor x / n) ==
               inject_Z (n * (Qfloor x / n)))%Q).
  { rewrite inject_Z_mult. reflexivity. }
  rewrite E, Qfloor_sub_Z.
  rewrite (Z.mod_eq (Qfloor x) n) by lia. reflexivity.
Qed.

Lemma mod_nonneg (x : Q) (n : Z) : 0 < n -> (0 <= Py.mod_ x (inject_Z n))%Q.
Proof.
  intros Hn.
  apply Qle_trans with (inject_Z (Qfloor (Py.mod_ x (inject_Z n)))).
  - rewrite Qfloor_mod by assumption.
    change 0%Q with (inject_Z 0). rewrite <- Zle_Qle.
    apply Z.mod_pos_bound; assumption.
  - apply Qfloor_le.
Qed.

End PyFacts.

(** ** [format_uptime] *)

Lemma format_uptime_units_floor (seconds : Q) :
  format_uptime_units seconds = decompose (Qfloor seconds).
Proof.
  unfold format_uptime_units, decompose.
  set (n := Qfloor seconds).
  assert (Hd : Py.int (Py.floordiv seconds 86400) = n / 86400).
  { unfold Py.floordiv. rewrite int_inject_Z.
    change 86400%Q with (inject_Z 86400). now rewrite Qfloor_div_Z. }
  assert (Hh : Py.int (Py.floordiv (Py.mod_ seconds 86400) 3600)
               = n mod 86400 / 3600).
  { unfold Py.floordiv at 1. rewrite int_inject_Z.
    change 3600%Q with (inject_Z 3600). rewrite Qfloor_div_Z by lia.
    change 86400%Q with (inject_Z 86400). now rewrite Qfloor_mod. }
  assert (Hm : Py.int (Py.floordiv (Py.mod_ seconds 3600) 60)
               = n mod 3600 / 60).
  { unfold Py.floordiv at 1. rewrite int_inject_Z.
    change 60%Q with (inject_Z 60). rewrite Qfloor_div_Z by lia.
    change 3600%Q with (inject_Z 3600). now rewrite Qfloor_mod. }
  assert (Hs : Py.int (Py.mod_ seconds 60) = n mod 60).
  { change 60%Q with (inject_Z 60).
    rewrite int_nonneg by (apply mod_nonneg; lia). now rewrite Qfloor_mod. }
  rewrite Hd, Hh, Hm, Hs.
  assert (E1 : n mod 3600 = (n mod 86400) mod 3600).
  { symmetry. apply Z.mod_mod_divide. exists 24. reflexivity. }
  assert (E2 : n mod 60 = (n mod 3600) mod 60).
  { symmetry. apply Z.mod_mod_divide. exists 60. reflexivity. }
  rewrite E2, E1. reflexivity.
Qed.

Lemma decompose_bounds (n : Z) :
  0 <= n ->
  let '(days, hours, minutes, secs) := decompose n in
  0 <= days /\ 0 <= hours < 24 /\ 0 <= minutes < 60 /\ 0 <= secs < 60.
Proof.
  intros Hn. unfold decompose.
  pose proof (Z.mod_pos_bound n 86400 ltac:(lia)) as H1.
  pose proof (Z.mod_pos_bound (n mod 86400) 3600 ltac:(lia)) as H2.
  pose proof (Z.mod_pos_bound ((n mod 86400) mod 3600) 60 ltac:(lia)) as H3.
  repeat split; try lia.
  - apply Z.div_pos; lia.
  - apply Z.div_pos; lia.
  - apply Z.div_lt_upper_bound; lia.
  - apply Z.div_pos; lia.
  - apply Z.div_lt_upper_bound; lia.
Qed.

Lemma decompose_sum (n : Z) :
  let '(days, hours, minutes, secs) := decompose n in
  days * 86400 + hours * 3600 + minutes * 60 + secs = n.
Proof.
  unfold decompose.
  pose proof (Z.div_mod n 86400 ltac:(lia)) as H1.
  pose proof (Z.div_mod (n mod 86400) 3600 ltac:(lia)) as H2.
  pose proof (Z.div_mod ((n mod 86400) mod 3600) 60 ltac:(lia)) as H3.
  lia.
Qed.

Lemma parts_shown_units (days hours minutes secs : Z) :
  0 <= days -> 0 <= hours -> 0 <= minutes ->
  format_uptime_parts (days, hours, minutes, secs)
  = shown_units (days, hours, minutes, secs).
Proof.
  intros Hd Hh Hm. unfold format_uptime_parts, shown_units. simpl.
  destruct (Z.gtb_spec days 0), (Z.eqb_spec days 0);
    destruct (Z.gtb_spec hours 0), (Z.eqb_spec hours 0);
    destruct (Z.gtb_spec minutes 0), (Z.eqb_spec minutes 0);
    try lia; reflexivity.
Qed.

(** C1, as the code has it: for a non-negative number of seconds the
    formatter splits its integer part into days, hours of the remainder,
    minutes of what remains and the seconds left over; it shows each of the
    days, hours and minutes exactly when that unit is not zero (so a zero unit
    is left out also after a non-zero higher one) and always shows the
    seconds; the parts are joined by single spaces.  It gives "0s" for 0,
    "1m 5s" for 65, "1h 1m 1s" for 3661, "1h 0s" for 3600, "1d 0s" for 86400,
    "1d 1h 0s" for 90000 and "59s" for 59. *)
Theorem format_uptime_shows_nonzero_units (seconds : Q) :
  (0 <= seconds)%Q ->
  format_uptime seconds
    = Py.join " " (shown_units (decompose (Py.int seconds)))
  /\ format_uptime 0 = "0s"
  /\ format_uptime 65 = "1m 5s"
  /\ format_uptime 3661 = "1h 1m 1s"
  /\ format_uptime 3600 = "1h 0s"
  /\ format_uptime 86400 = "1d 0s"
  /\ format_uptime 90000 = "1d 1h 0s"
  /\ format_uptime 59 = "59s".
Proof.
  intros Hs. split; [| repeat split; reflexivity].
  unfold format_uptime. rewrite format_uptime_units_floor.
  rewrite (int_nonneg seconds Hs).
  assert (Hn : 0 <= Qfloor seconds).
  { change 0 with (Qfloor 0). apply Qfloor_resp_le. exact Hs. }
  pose proof (decompose_bounds (Qfloor seconds) Hn) as Hb.
  destruct (decompose (Qfloor seconds)) as [[[d h] m] sec].
  rewrite parts_shown_units by lia. reflexivity.
Qed.

Lemma format_uptime_shows_nonzero_units_witness :
  (0 <= 7322999 # 1000)%Q /\
  format_uptime (7322999 # 1000) = "2h 2m 2s".
Proof.
  split; [unfold Qle; simpl; lia |].
  destruct (format_uptime_shows_nonzero_units (7322999 # 1000)) as [H _].
  - unfold Qle; simpl; lia.
  - rewrite H. reflexivity.
Defined.

(** C1, as stated, fails: one hour is rendered without its zero minutes, and
    a day without its zero hours and minutes. *)
Lemma format_uptime_drops_inner_zero_units :
  format_uptime 3600 = "1h 0s" /\ format_uptime 3600 <> "1h 0m 0s"
  /\ format_uptime 86400 <> "1d 0h 0m 0s"
  /\ format_uptime 90000 <> "1d 1h 0m 0s".
Proof.
  repeat split; try reflexivity; intros H; vm_compute in H; discriminate H.
Qed.

(** C9: for a non-negative number of seconds the rendering is that of its
    integer part, the integer part being both the floor and Python's
    truncation, and the four unit values the function computes are the
    mixed-radix digits of that integer: they add up to it, with hours below
    24 and minutes and seconds below 60. *)
Theorem format_uptime_depends_on_floor (seconds : Q) :
  (0 <= seconds)%Q ->
  format_uptime seconds = format_uptime (inject_Z (Qfloor seconds))
  /\ Py.int seconds = Qfloor seconds
  /\ let '(days, hours, minutes, secs) := format_uptime_units seconds in
     days * 86400 + hours * 3600 + minutes * 60 + secs = Qfloor seconds
     /\ 0 <= days /\ 0 <= hours < 24 /\ 0 <= minutes < 60 /\ 0 <= secs < 60.
Proof.
  intros Hs.
  assert (Hn : 0 <= Qfloor seconds).
  { change 0 with (Qfloor 0). apply Qfloor_resp_le. exact Hs. }
  split; [| split].
  - unfold format_uptime. rewrite !format_uptime_units_floor.
    rewrite Qfloor_Z. reflexivity.
  - apply int_nonneg. exact Hs.
  - rewrite format_uptime_units_floor.
    pose proof (decompose_sum (Qfloor seconds)) as Hsum.
    pose proof (decompose_bounds (Qfloor seconds) Hn) as Hb.
    destruct (decompose (Qfloor seconds)) as [[[d h] m] sec].
    split; [exact Hsum | exact Hb].
Qed.

Lemma format_uptime_depends_on_floor_witness :
  (0 <= 183907 # 2)%Q /\
  format_uptime (183907 # 2) = format_uptime 91953 /\
  format_uptime_units (183907 # 2) = (1, 1, 32, 33).
Proof.
  split; [unfold Qle; simpl; lia |].
  destruct (format_uptime_depends_on_floor (183907 # 2)) as [H _].
  - unfold Qle; simpl; lia.
  - split; [exact H | reflexivity].
Defined.

(** ** [get_uptime] *)

(** C3: for two readings of the clock [t1 <= t2], both at or after the
    recorded start time, the uptime at [t1] is at most the uptime at [t2], and
    neither is negative. *)
Theorem get_uptime_monotone (cfg : Config) (t1 t2 : Q) :
  (START_TIME cfg <= t1)%Q -> (t1 <= t2)%Q ->
  (get_uptime cfg t1 <= get_uptime cfg t2)%Q
  /\ (0 <= get_uptime cfg t1)%Q /\ (0 <= get_uptime cfg t2)%Q.
Proof.
  intros H0 H12. unfold get_uptime.
  assert (H02 : (START_TIME cfg <= t2)%Q) by (eapply Qle_trans; eassumption).
  repeat split.
  - apply Qplus_le_compat; [exact H12 | apply Qle_refl].
  - apply (proj1 (Qle_minus_iff (START_TIME cfg) t1)). exact H0.
  - apply (proj1 (Qle_minus_iff (START_TIME cfg) t2)). exact H02.
Qed.

Lemma get_uptime_monotone_witness :
  let cfg := {| PORT := 5000; FLASK_ENV := "development"; LOG_LEVEL := "info";
                START_TIME := 1700000000 |} in
  (get_uptime cfg (3400000001 # 2) <= get_uptime cfg 1700000065)%Q
  /\ (0 <= get_uptime cfg (3400000001 # 2))%Q
  /\ (0 <= get_uptime cfg 1700000065)%Q.
Proof.
  intros cfg.
  apply (get_uptime_monotone cfg (3400000001 # 2) 1700000065);
    unfold Qle; simpl; lia.
Defined.

(** ** The error handlers *)

Lemma after_request_keeps (cfg : Config) (req : Request) (now : Q)
    (response : Response) (out : Stdout) :
  body (after_request cfg req now response out).1 = body response
  /\ status_code (after_request cfg req now response out).1 = status_code response.
Proof. split; reflexivity. Qed.

(** C2: whatever exception reaches the catch-all handler, the response has
    status 500, its [message] is the text of the exception when the
    environment label is "development" and "Something went wrong" otherwise,
    and in both cases one line carrying the text of the exception is added to
    the process output. *)
Theorem handle_exception_message (cfg : Config) (error : Py.exn)
    (utcnow : Datetime.t) (out : Stdout) :
  let response := (handle_exception cfg error utcnow out).1 in
  let out' := (handle_exception cfg error utcnow out).2 in
  status_code response = 500
  /\ jget "status_code" (body response) = Some (JInt 500)
  /\ jget "error" (body response) = Some (JStr "Internal Server Error")
  /\ jget "message" (body response)
     = Some (JStr (if decide (FLASK_ENV cfg = "development")
                   then Py.str_exn error
                   else "Something went wrong"))
  /\ out' = out ++ ["[App2] Error: " +:+ Py.str_exn error].
Proof.
  simpl. repeat split.
  destruct (String.eqb_spec (FLASK_ENV cfg) "development") as [E | E];
    destruct (decide (FLASK_ENV cfg = "development")); congruence.
Qed.

(** An exception a view raises reaches the catch-all handler, with the
    output the view had written before raising. *)
Lemma raised_in_view_is_caught (cfg : Config) (host : Host) (e : Endpoint)
    (req : Request) (clk : Clock) (out out1 : Stdout) (error : Py.exn) :
  call_view cfg host e req clk out = (Py.Raise error, out1) ->
  dispatch_request cfg host (Matched e) req clk out
  = handle_exception cfg error (utcnow clk) out1.
Proof. intros H. unfold dispatch_request. rewrite H. reflexivity. Qed.

(** C10: the handler registered for status 500 answers with the message
    "Something went wrong" whatever the configuration, the environment label
    "development" included, also once the response went through
    [after_request]. *)
Theorem internal_error_message_fixed (cfg : Config) (host : Host)
    (error : Py.exn) (req : Request) (clk : Clock) (out : Stdout) :
  jget "message" (body (internal_error error (utcnow clk)))
    = Some (JStr "Something went wrong")
  /\ status_code (internal_error error (utcnow clk)) = 500
  /\ jget "message"
       (body (handle_request cfg host (ServerError error) req clk out).1)
     = Some (JStr "Something went wrong")
  /\ status_code (handle_request cfg host (ServerError error) req clk out).1 = 500.
Proof. repeat split. Qed.







(** ** Decimal renderings *)

Section Digits.

Lemma is_digit_digit (d : Z) : 0 <= d < 10 -> is_digit (Py.digit d) = true.
Proof.
  intros H.
  assert (E : d = 0 \/ d = 1 \/ d = 2 \/ d = 3 \/ d = 4 \/ d = 5 \/ d = 6
              \/ d = 7 \/ d = 8 \/ d = 9) by lia.
  repeat (destruct E as [-> | E]; [reflexivity |]). subst d. reflexivity.
Qed.

Lemma is_digit_mod10 (n : Z) : is_digit (Py.digit (n mod 10)) = true.
Proof. apply is_digit_digit. apply Z.mod_pos_bound. lia. Qed.

Lemma is_digit_not (c a : ascii) :
  is_digit a = false -> is_digit c = true -> Ascii.eqb c a = false.
Proof.
  intros Ha Hc. destruct (Ascii.eqb_spec c a) as [-> | _]; [congruence | reflexivity].
Qed.

Lemma all_digits_uint (u : Decimal.uint) :
  all_digits (NilEmpty.string_of_uint u) = true.
Proof. induction u; simpl; auto. Qed.

(** [str] of a natural number: digits, and at least one. *)
Lemma str_nonneg_digits (n : Z) :
  0 <= n -> exists c rest,
    Py.str n = String c rest /\ is_digit c = true /\ all_digits rest = true.
Proof.
  intros Hn. unfold Py.str.
  destruct n as [| p | p]; [| | lia].
  - exists "0"%char, EmptyString. repeat split.
  - change (NilZero.string_of_int (Z.to_int (Z.pos p)))
      with (NilZero.string_of_uint (Pos.to_uint p)).
    pose proof (all_digits_uint (Pos.to_uint p)) as Hall.
    destruct (Pos.to_uint p) as [| u | u | u | u | u | u | u | u | u | u];
      [exists "0"%char, EmptyString; repeat split | ..];
      cbn [NilZero.string_of_uint NilEmpty.string_of_uint] in *;
      cbn [all_digits] in Hall; apply andb_prop in Hall as [H1 H2];
      eauto.
Qed.

Lemma point_3_digits_s_app (ds : string) (d1 d2 d3 : ascii) :
  all_digits ds = true ->
  is_digit d1 = true -> is_digit d2 = true -> is_digit d3 = true ->
  point_3_digits_s
    (ds +:+ String "." (String d1 (String d2 (String d3 "s")))) = true.
Proof.
  intros Hds H1 H2 H3. induction ds as [| c ds IH]; simpl.
  - rewrite H1, H2, H3. reflexivity.
  - simpl in Hds. apply andb_prop in Hds as [Hc Hds].
    rewrite (is_digit_not c "." eq_refl Hc), Hc. simpl. auto.
Qed.

Lemma append_nil (b : string) : EmptyString +:+ b = b.
Proof. reflexivity. Qed.

Lemma append_cons (x : ascii) (a b : string) :
  String x a +:+ b = String x (a +:+ b).
Proof. reflexivity. Qed.

Lemma append_assoc (a b c : string) : (a +:+ b) +:+ c = a +:+ (b +:+ c).
Proof.
  induction a as [| x a IH]; [reflexivity |].
  rewrite !append_cons. f_equal. exact IH.
Qed.

(** The nearest integer is within one half, and is not negative for a
    number that is not. *)
Lemma round_half_even_close (x : Q) :
  (x - (1 # 2) <= inject_Z (Py.round_half_even x) <= x + (1 # 2))%Q.
Proof.
  unfold Py.round_half_even.
  pose proof (Qfloor_le x) as Hlo. pose proof (Qlt_floor x) as Hhi.
  rewrite inject_Z_plus in Hhi. change (inject_Z 1) with 1%Q in Hhi.
  destruct (Qcompare_spec (x - inject_Z (Qfloor x)) (1 # 2)) as [E | E | E].
  - destruct (Z.even (Qfloor x)).
    + split; lra.
    + rewrite inject_Z_plus. change (inject_Z 1) with 1%Q. split; lra.
  - split; lra.
  - rewrite inject_Z_plus. change (inject_Z 1) with 1%Q. split; lra.
Qed.

Lemma round_half_even_nonneg (x : Q) :
  (0 <= x)%Q -> 0 <= Py.round_half_even x.
Proof.
  intros Hx.
  assert (Hf : 0 <= Qfloor x).
  { change 0 with (Qfloor 0). apply Qfloor_resp_le. exact Hx. }
  unfold Py.round_half_even.
  destruct (Qcompare _ _); [destruct (Z.even _) | |]; lia.
Qed.

(** [round(x, 2)] is a whole number of hundredths, the nearest one. *)
Lemma round2_nearest_hundredth (x : Q) :
  (Py.round2 x * 100 == inject_Z (Py.round_half_even (x * 100)))%Q
  /\ (x - (1 # 200) <= Py.round2 x <= x + (1 # 200))%Q.
Proof.
  pose proof (round_half_even_close (x * 100)) as [Hlo Hhi].
  assert (E : (Py.round2 x == inject_Z (Py.round_half_even (x * 100)) / 100)%Q).
  { unfold Py.round2. rewrite (Qmake_Qdiv _ 100). reflexivity. }
  split.
  - rewrite E. field.
  - rewrite E. split.
    + apply Qle_shift_div_l; [reflexivity | lra].
    + apply Qle_shift_div_r; [reflexivity | lra].
Qed.

(** [f"{x:.3f}s"] has the shape sign, digits, point, three digits, [s]. *)
Lemma format_3f_shape (x : Q) :
  is_seconds_3_decimals (Py.format_3f x +:+ "s") = true.
Proof.
  unfold Py.format_3f.
  set (n := Py.round_half_even (Qabs x * 1000)).
  assert (Hn : 0 <= n).
  { apply round_half_even_nonneg.
    apply Qmult_le_0_compat; [apply Qabs_nonneg | discriminate]. }
  pose proof (Z.mod_pos_bound n 1000 ltac:(lia)) as Hf.
  set (frac := n mod 1000) in *.
  assert (H1 : is_digit (Py.digit (frac / 100)) = true).
  { apply is_digit_digit. split; [apply Z.div_pos; lia |].
    apply Z.div_lt_upper_bound; lia. }
  pose proof (is_digit_mod10 (frac / 10)) as H2.
  pose proof (is_digit_mod10 frac) as H3.
  destruct (str_nonneg_digits (n / 1000)) as (c & rest & E & Hc & Hrest).
  { apply Z.div_pos; lia. }
  rewrite E, !append_assoc.
  assert (Hbody :
    unsigned_3_decimals_s
      (String c rest +:+ "." +:+
         String (Py.digit (frac / 100))
           (String (Py.digit (frac / 10 mod 10))
              (String (Py.digit (frac mod 10)) EmptyString)) +:+ "s") = true).
  { rewrite !append_cons, !append_nil. cbn [unsigned_3_decimals_s].
    rewrite Hc. simpl andb.
    apply (point_3_digits_s_app rest); assumption. }
  destruct (Qcompare x 0); rewrite ?append_nil.
  - rewrite append_cons in *. cbn [is_seconds_3_decimals].
    rewrite (is_digit_not c "-" eq_refl Hc). exact Hbody.
  - rewrite (append_cons "-"), append_nil. cbn [is_seconds_3_decimals].
    change (Ascii.eqb "-" "-") with true. cbv iota. exact Hbody.
  - rewrite append_cons in *. cbn [is_seconds_3_decimals].
    rewrite (is_digit_not c "-" eq_refl Hc). exact Hbody.
Qed.

(** [zpad] and the timestamp. *)
Lemma timestamp_shape (dt : Datetime.t) :
  is_iso8601_utc (timestamp dt) = true.
Proof.
  unfold timestamp, Datetime.isoformat, is_iso8601_utc.
  destruct (Datetime.microsecond dt =? 0).
  - apply orb_true_intro. left.
    cbn [Datetime.zpad]. rewrite ?append_assoc, ?append_cons, ?append_nil.
    cbn [app iso_date_time matches].
    rewrite !is_digit_mod10. reflexivity.
  - apply orb_true_intro. right.
    cbn [Datetime.zpad]. rewrite ?append_assoc, ?append_cons, ?append_nil.
    cbn [app iso_date_time matches].
    rewrite !is_digit_mod10. reflexivity.
Qed.

End Digits.

(** ** The views *)

(** C8: the root view answers 200 with the service name, the version, a fixed
    message, [status] "running", a timestamp that is an ISO-8601 instant
    ending in "Z", the same four endpoint descriptors whatever the request and
    the clock, and a fixed protection label. *)
Theorem home_document (cfg : Config) (host : Host) (req : Request)
    (clk : Clock) (out : Stdout) :
  let response := (handle_request cfg host (Matched Home) req clk out).1 in
  (home req (utcnow clk) out).1
    = Py.Return (jsonify (body response))
  /\ status_code response = 200
  /\ jget "service" (body response) = Some (JStr "app2-api-service")
  /\ jget "version" (body response) = Some (JStr "1.0.0")
  /\ jget "message" (body response)
     = Some (JStr "App 2 API Service - Limbic Capital DevOps Assessment")
  /\ jget "status" (body response) = Some (JStr "running")
  /\ jget "timestamp" (body response) = Some (JStr (timestamp (utcnow clk)))
  /\ is_iso8601_utc (timestamp (utcnow clk)) = true
  /\ jget "protection" (body response)
     = Some (JStr "Cloudflare Zero Trust Access")
  /\ exists descriptors,
       jget "endpoints" (body response) = Some (JList descriptors)
       /\ length descriptors = 4%nat
       /\ map (jget "path") descriptors
          = map (fun p => Some (JStr p)) ["/"; "/status"; "/health"; "/info"]
       /\ map (jget "method") descriptors
          = map (fun m => Some (JStr m)) ["GET"; "GET"; "GET"; "GET"]
       /\ map jkeys descriptors
          = repeat ["path"; "method"; "description"] 4.
Proof.
  simpl. repeat split; try apply timestamp_shape.
  eexists. repeat split.
Qed.

(** C7: the status view answers 200 with the service id, [status] "ok", a
    timestamp, [uptime_seconds] the uptime rounded to the nearest hundredth,
    [uptime] the rendering by [format_uptime] of that same uptime, the
    version and the configured environment label. *)
Theorem status_document (cfg : Config) (host : Host) (req : Request)
    (clk : Clock) (out : Stdout) :
  let response := (handle_request cfg host (Matched Status) req clk out).1 in
  let uptime := get_uptime cfg (t_view clk) in
  (status cfg req (t_view clk) (utcnow clk) out).1
    = Py.Return (jsonify (body response))
  /\ status_code response = 200
  /\ jkeys (body response)
     = ["service"; "status"; "timestamp"; "uptime_seconds"; "uptime";
        "version"; "environment"]
  /\ jget "service" (body response) = Some (JStr "app2")
  /\ jget "status" (body response) = Some (JStr "ok")
  /\ jget "timestamp" (body response) = Some (JStr (timestamp (utcnow clk)))
  /\ jget "uptime_seconds" (body response) = Some (JFloat (Py.round2 uptime))
  /\ (Py.round2 uptime * 100 == inject_Z (Py.round_half_even (uptime * 100)))%Q
  /\ (uptime - (1 # 200) <= Py.round2 uptime <= uptime + (1 # 200))%Q
  /\ jget "uptime" (body response) = Some (JStr (format_uptime uptime))
  /\ jget "version" (body response) = Some (JStr APP_VERSION)
  /\ jget "environment" (body response) = Some (JStr (FLASK_ENV cfg)).
Proof.
  simpl.
  pose proof (round2_nearest_hundredth (get_uptime cfg (t_view clk))) as [H1 [H2 H3]].
  repeat split; assumption.
Qed.

(** C6: the health view answers 200 with [status] "healthy" and a [checks]
    object of exactly the three flags [api_responsive], [can_connect] and
    [environment_loaded], each [true], whatever the configuration, the host,
    the request and the clock. *)
Theorem health_document (cfg : Config) (host : Host) (req : Request)
    (clk : Clock) (out : Stdout) :
  let response := (handle_request cfg host (Matched Health) req clk out).1 in
  (health cfg host req (t_view clk) (utcnow clk) out).1
    = Py.Return (jsonify (body response))
  /\ status_code response = 200
  /\ jget "status" (body response) = Some (JStr "healthy")
  /\ jget "checks" (body response)
     = Some (JDict [("api_responsive", JBool true);
                    ("can_connect", JBool true);
                    ("environment_loaded", JBool true)]).
Proof. simpl. repeat split. Qed.

(** ** The response hook *)

Lemma dispatch_request_headers (cfg : Config) (host : Host) (routing : Routing)
    (req : Request) (clk : Clock) (out : Stdout) :
  resp_headers (dispatch_request cfg host routing req clk out).1
  = {[ "Content-Type" := "application/json" ]}.
Proof.
  destruct routing as [e | error | error | error]; [destruct e | | |];
    try reflexivity.
  unfold dispatch_request, call_view, info.
  destruct (Flask_version host); reflexivity.
Qed.

(** C4: whatever the routing gave (a view's response, the 404 or a 500
    response), the response sent has [X-Service] and [X-Version] set to the
    name and the version of the service; [X-Response-Time] is there exactly
    when the request carries its arrival time, and is then the elapsed
    time in seconds with three decimals followed by "s".  In the full cycle
    the arrival time is always recorded. *)
Theorem after_request_headers (cfg : Config) (host : Host) (routing : Routing)
    (req : Request) (clk : Clock) (out : Stdout) :
  let response := (dispatch_request cfg host routing req clk out).1 in
  let out1 := (dispatch_request cfg host routing req clk out).2 in
  let sent := (after_request cfg req (t_after clk) response out1).1 in
  let cycle := (handle_request cfg host routing req clk out).1 in
  resp_headers sent !! "X-Service" = Some APP_NAME
  /\ resp_headers sent !! "X-Version" = Some APP_VERSION
  /\ resp_headers sent !! "X-Response-Time"
     = (fun t0 => Py.format_3f (t_after clk - t0) +:+ "s") <$> start_time req
  /\ (forall duration : Q,
        is_seconds_3_decimals (Py.format_3f duration +:+ "s") = true)
  /\ status_code sent = status_code response
  /\ resp_headers cycle !! "X-Service" = Some APP_NAME
  /\ resp_headers cycle !! "X-Version" = Some APP_VERSION
  /\ resp_headers cycle !! "X-Response-Time"
     = Some (Py.format_3f (t_after clk - t_before clk) +:+ "s").
Proof.
  assert (Hsent : forall rq,
    let response := (dispatch_request cfg host routing rq clk out).1 in
    let out1 := (dispatch_request cfg host routing rq clk out).2 in
    let sent := (after_request cfg rq (t_after clk) response out1).1 in
    resp_headers sent !! "X-Service" = Some APP_NAME
    /\ resp_headers sent !! "X-Version" = Some APP_VERSION
    /\ resp_headers sent !! "X-Response-Time"
       = (fun t0 => Py.format_3f (t_after clk - t0) +:+ "s") <$> start_time rq).
  { intros rq. cbn zeta. unfold after_request. cbn [fst resp_headers].
    rewrite dispatch_request_headers.
    destruct (start_time rq) as [t0 |]; cbn [fmap option_fmap option_map].
    - rewrite lookup_insert_ne, lookup_insert_ne, lookup_insert_eq by done.
      rewrite lookup_insert_ne, lookup_insert_eq by done.
      rewrite lookup_insert_eq. auto.
    - rewrite lookup_insert_ne, lookup_insert_eq by done.
      rewrite lookup_insert_eq.
      rewrite !lookup_insert_ne by done. auto. }
  cbn zeta. destruct (Hsent req) as (H1 & H2 & H3).
  repeat split; try assumption.
  - intros duration. apply format_3f_shape.
  - unfold handle_request.
    destruct (Hsent (before_request (t_before clk) req)) as (H & _).
    destruct (dispatch_request cfg host routing _ clk out) as [r o]. exact H.
  - unfold handle_request.
    destruct (Hsent (before_request (t_before clk) req)) as (_ & H & _).
    destruct (dispatch_request cfg host routing _ clk out) as [r o]. exact H.
  - unfold handle_request.
    destruct (Hsent (before_request (t_before clk) req)) as (_ & _ & H).
    destruct (dispatch_request cfg host routing _ clk out) as [r o]. exact H.
Qed.

(** ** The cycle on concrete requests *)

(** The router on sample requests: a view for GET and HEAD on a rule, 405
    for another method, 404 for an unknown path or a trailing slash, and no
    part for the source in the answer to OPTIONS and to a path that only
    matches with its slashes merged. *)
Example route_samples :
  route (example_request "GET" "/status") = Some (Matched Status)
  /\ route (example_request "HEAD" "/ping") = Some (Matched Ping)
  /\ (exists error, route (example_request "POST" "/status")
                    = Some (NotAllowed error))
  /\ (exists error, route (example_request "GET" "/status/")
                    = Some (NoMatch error))
  /\ (exists error, route (example_request "GET" "//nothing")
                    = Some (NoMatch error))
  /\ route (example_request "OPTIONS" "/info") = None
  /\ route (example_request "GET" "//status") = None.
Proof. repeat split; try reflexivity; eexists; reflexivity. Qed.

(** An unmatched request in production: 404, the three headers, no log line. *)
Example cycle_unmatched :
  let '(response, out) :=
    handle_request (example_cfg "production") (example_host None)
      (NoMatch (Py.Exception "404 Not Found"))
      (example_request "GET" "/doesnotexist") example_clock [] in
  status_code response = 404
  /\ jget "message" (body response)
     = Some (JStr "Route GET /doesnotexist not found")
  /\ jget "timestamp" (body response)
     = Some (JStr "2023-11-14T23:14:21.000500Z")
  /\ resp_headers response !! "X-Response-Time" = Some "0.012s"
  /\ resp_headers response !! "X-Service" = Some "app2-api-service"
  /\ out = [].
Proof. vm_compute. repeat split. Qed.

(** The status view in development: the uptime of 3661.5 seconds, and the
    two log lines. *)
Example cycle_status :
  let '(response, out) :=
    handle_request (example_cfg "development") (example_host None)
      (Matched Status) (example_request "GET" "/status") example_clock [] in
  status_code response = 200
  /\ jget "uptime" (body response) = Some (JStr "1h 1m 1s")
  /\ jget "uptime_seconds" (body response) = Some (JFloat (366150 # 100))
  /\ out = ["[App2] GET /status - Forwarded by: unknown";
            "[App2] Response: 200 - 0.012s"].
Proof. vm_compute. repeat split. Qed.

(** The info view where the class [Flask] carries no [__version__]: the
    lookup raises, and the catch-all handler answers 500. *)
Example cycle_info_without_version :
  let '(response, out) :=
    handle_request (example_cfg "production") (example_host None)
      (Matched Info) (example_request "GET" "/info") example_clock [] in
  status_code response = 500
  /\ jget "message" (body response) = Some (JStr "Something went wrong")
  /\ out = ["[App2] GET /info - Forwarded by: unknown";
            "[App2] Error: type object 'Flask' has no attribute '__version__'"].
Proof. vm_compute. repeat split. Qed.

(** * Further properties of the code *)

(** ** Uptime when the clock misbehaves, and across calls *)

(** The difference of two uptimes is the time elapsed between the two
    readings of the clock, whatever the start time; and the uptime is not
    clamped: it is negative exactly for a reading before the start time. *)
Lemma get_uptime_elapsed (cfg : Config) (t1 t2 : Q) :
  (get_uptime cfg t2 - get_uptime cfg t1 == t2 - t1)%Q
  /\ ((get_uptime cfg t1 < 0)%Q <-> (t1 < START_TIME cfg)%Q).
Proof.
  unfold get_uptime. split; [ring |]. split; intros H; lra.
Qed.

Lemma decompose_day_remainder (n : Z) :
  decompose (n mod 86400)
  = (0, snd (fst (fst (decompose n))), snd (fst (decompose n)),
     snd (decompose n)).
Proof.
  unfold decompose; cbn [fst snd].
  pose proof (Z.mod_pos_bound n 86400 ltac:(lia)) as Hb.
  rewrite Z.mod_mod by lia.
  rewrite (Z.div_small (n mod 86400) 86400) by lia. reflexivity.
Qed.

(** X1: a negative number of seconds is rendered without sign and without
    days, as the time of day it falls on: the rendering is that of the
    integer part reduced modulo one day.  So one second before the start
    shows as "23h 59m 59s". *)
Theorem format_uptime_negative (seconds : Q) :
  (seconds < 0)%Q ->
  fst (fst (fst (format_uptime_units seconds))) < 0
  /\ 0 <= Qfloor seconds mod 86400 < 86400
  /\ format_uptime seconds
     = format_uptime (inject_Z (Qfloor seconds mod 86400)).
Proof.
  intros Hs.
  assert (Hn : Qfloor seconds < 0).
  { pose proof (Qfloor_le seconds) as Hle.
    assert (Hq : (inject_Z (Qfloor seconds) < inject_Z 0)%Q).
    { change (inject_Z 0) with 0%Q. lra. }
    rewrite <- Zlt_Qlt in Hq. exact Hq. }
  pose proof (Z.mod_pos_bound (Qfloor seconds) 86400 ltac:(lia)) as Hb.
  split; [| split; [exact Hb |]].
  - rewrite format_uptime_units_floor. unfold decompose; cbn [fst].
    apply Z.div_lt_upper_bound; lia.
  - unfold format_uptime. rewrite !format_uptime_units_floor, Qfloor_Z.
    rewrite decompose_day_remainder.
    assert (Hd : fst (fst (fst (decompose (Qfloor seconds)))) < 0).
    { unfold decompose; cbn [fst]. apply Z.div_lt_upper_bound; lia. }
    destruct (decompose (Qfloor seconds)) as [[[d h] m] sec].
    cbn [fst snd] in *. unfold format_uptime_parts.
    destruct (Z.gtb_spec d 0); [lia |]. reflexivity.
Qed.

Lemma format_uptime_negative_witness :
  (-1 < 0)%Q /\ format_uptime (-1) = "23h 59m 59s".
Proof.
  split; [reflexivity |].
  destruct (format_uptime_negative (-1)) as (_ & _ & H); [reflexivity |].
  rewrite H. reflexivity.
Defined.

Lemma round_half_even_mono (x y : Q) :
  (x <= y)%Q -> Py.round_half_even x <= Py.round_half_even y.
Proof.
  intros Hxy. pose proof (Qfloor_resp_le x y Hxy) as Hf.
  unfold Py.round_half_even.
  remember (Qfloor x) as fx eqn:Efx. remember (Qfloor y) as fy eqn:Efy.
  destruct (Z.eq_dec fx fy) as [E | NE].
  - subst fy. rewrite <- E.
    destruct (Qcompare_spec (x - inject_Z fx) (1 # 2)) as [Hx | Hx | Hx];
      destruct (Qcompare_spec (y - inject_Z fx) (1 # 2)) as [Hy | Hy | Hy];
      destruct (Z.even fx); try lia; exfalso; lra.
  - destruct (Qcompare (x - inject_Z fx) (1 # 2));
      destruct (Qcompare (y - inject_Z fy) (1 # 2));
      destruct (Z.even fx); destruct (Z.even fy); lia.
Qed.

Lemma round2_mono (x y : Q) : (x <= y)%Q -> (Py.round2 x <= Py.round2 y)%Q.
Proof.
  intros Hxy. unfold Py.round2, Qle; cbn [Qnum Qden].
  assert (H : Py.round_half_even (x * 100) <= Py.round_half_even (y * 100)).
  { apply round_half_even_mono. apply Qmult_le_compat_r; [exact Hxy | discriminate]. }
  lia.
Qed.

(** X2: the [uptime_seconds] of the status view never decreases from one
    clock reading to a later one, rounding included, and the health view
    reports the same number and the same rendering under [uptime]. *)
Theorem uptime_seconds_monotone (cfg : Config) (host : Host)
    (req1 req2 : Request) (clk1 clk2 : Clock) (out1 out2 : Stdout) :
  (t_view clk1 <= t_view clk2)%Q ->
  let doc1 := body (handle_request cfg host (Matched Status) req1 clk1 out1).1 in
  let doc2 := body (handle_request cfg host (Matched Status) req2 clk2 out2).1 in
  let hdoc := body (handle_request cfg host (Matched Health) req1 clk1 out1).1 in
  exists u1 u2,
    jget "uptime_seconds" doc1 = Some (JFloat u1)
    /\ jget "uptime_seconds" doc2 = Some (JFloat u2)
    /\ (u1 <= u2)%Q
    /\ (jget "uptime" hdoc ≫= jget "seconds") = Some (JFloat u1)
    /\ (jget "uptime" hdoc ≫= jget "formatted") = jget "uptime" doc1.
Proof.
  intros Ht. cbn zeta.
  exists (Py.round2 (get_uptime cfg (t_view clk1))),
         (Py.round2 (get_uptime cfg (t_view clk2))).
  repeat split.
  apply round2_mono. unfold get_uptime. lra.
Qed.

Lemma uptime_seconds_monotone_witness :
  let cfg := example_cfg "production" in
  let clk2 := {| t_before := 1700003662; t_view := 1700003662004 # 1000;
                 utcnow := utcnow example_clock; t_after := 1700003663 |} in
  exists u1 u2,
    jget "uptime_seconds"
      (body (handle_request cfg (example_host None) (Matched Status)
               (example_request "GET" "/status") example_clock []).1)
      = Some (JFloat u1)
    /\ jget "uptime_seconds"
      (body (handle_request cfg (example_host None) (Matched Status)
               (example_request "GET" "/status") clk2 []).1)
      = Some (JFloat u2)
    /\ (u1 <= u2)%Q.
Proof.
  intros cfg clk2.
  destruct (uptime_seconds_monotone cfg (example_host None)
              (example_request "GET" "/status") (example_request "GET" "/status")
              example_clock clk2 [] [])
    as (u1 & u2 & H1 & H2 & H3 & _).
  - unfold Qle; simpl; lia.
  - exists u1, u2. auto.
Defined.

(** ** The response hook on any response *)

(** X3: on any response whatever, [after_request] leaves the body, the
    status and every other header as they were; it overwrites [X-Service]
    and [X-Version]; and it sets [X-Response-Time] from the arrival time of
    the request, leaving a value already on the response in place when the
    request carries no arrival time. *)
Theorem after_request_header_map (cfg : Config) (req : Request) (now : Q)
    (response : Response) (out : Stdout) (name : string) :
  let sent := (after_request cfg req now response out).1 in
  body sent = body response
  /\ status_code sent = status_code response
  /\ resp_headers sent !! name
     = if decide (name = "X-Service") then Some APP_NAME
       else if decide (name = "X-Version") then Some APP_VERSION
       else if decide (name = "X-Response-Time") then
         match start_time req with
         | Some t0 => Some (Py.format_3f (now - t0) +:+ "s")
         | None => resp_headers response !! name
         end
       else resp_headers response !! name.
Proof.
  cbn zeta. split; [reflexivity | split; [reflexivity |]].
  unfold after_request; cbn [fst resp_headers].
  destruct (start_time req) as [t0 |];
    repeat case_decide; subst; try discriminate;
    repeat first [ rewrite lookup_insert_eq | rewrite lookup_insert_ne by done ];
    reflexivity.
Qed.

(** The line the response hook prints: none outside development; in
    development one line with the status and the response time, and the
    placeholder "N/A" when the request carries no arrival time and the
    response has no such header. *)
Lemma after_request_log (cfg : Config) (req : Request) (now : Q)
    (response : Response) (out : Stdout) :
  (after_request cfg req now response out).2
  = if decide (FLASK_ENV cfg = "development")
    then out ++ ["[App2] Response: " +:+ Py.str (status_code response) +:+ " - "
                   +:+ match start_time req with
                       | Some t0 => Py.format_3f (now - t0) +:+ "s"
                       | None =>
                           default "N/A"
                             (resp_headers response !! "X-Response-Time")
                       end]
    else out.
Proof.
  unfold after_request; cbn [snd].
  destruct (String.eqb_spec (FLASK_ENV cfg) "development") as [E | E];
    case_decide; try congruence.
  unfold print. do 3 f_equal.
  destruct (start_time req) as [t0 |].
  - rewrite lookup_insert_eq. reflexivity.
  - rewrite !lookup_insert_ne by done. reflexivity.
Qed.

(** ** What the cycle writes to the output *)

Lemma call_view_output (cfg : Config) (host : Host) (e : Endpoint)
    (req : Request) (clk : Clock) (out : Stdout) :
  (call_view cfg host e req clk out).2
  = out ++ ["[App2] " +:+ method req +:+ " " +:+ path req
              +:+ " - Forwarded by: "
              +:+ default "unknown" (headers req !! "X-Forwarded-By")].
Proof.
  destruct e; try reflexivity.
  unfold call_view, info; destruct (Flask_version host); reflexivity.
Qed.

(** X4: each of the five views prints the request line exactly once, with
    "unknown" for a request without [X-Forwarded-By], and does so also when
    it goes on to raise; the line does not depend on the arrival time. *)
Theorem every_view_logs_request (cfg : Config) (host : Host) (e : Endpoint)
    (req : Request) (clk : Clock) (out : Stdout) (now : Q) :
  (call_view cfg host e req clk out).2 = out ++ [request_line req]
  /\ (call_view cfg host e (before_request now req) clk out).2
     = out ++ [request_line req].
Proof.
  split; destruct e; try reflexivity;
    unfold call_view, info; destruct (Flask_version host); reflexivity.
Qed.

(** X5: a request the router rejects, and a 500 raised by the framework,
    leave no trace in the output outside development; in development the
    only line is the response line, which in the cycle always carries the
    measured time, never the placeholder. *)
Theorem framework_errors_logging (cfg : Config) (host : Host) (error : Py.exn)
    (req : Request) (clk : Clock) (out : Stdout) :
  let time := Py.format_3f (t_after clk - t_before clk) +:+ "s" in
  (handle_request cfg host (NoMatch error) req clk out).2
    = (if decide (FLASK_ENV cfg = "development")
       then out ++ ["[App2] Response: 404 - " +:+ time]
       else out)
  /\ (handle_request cfg host (ServerError error) req clk out).2
    = (if decide (FLASK_ENV cfg = "development")
       then out ++ ["[App2] Response: 500 - " +:+ time]
       else out).
Proof.
  cbn zeta. unfold handle_request, dispatch_request.
  rewrite !after_request_log.
  case_decide; split; reflexivity.
Qed.

(** X6: the cycle only ever appends to the output: what was printed before
    stays as a prefix, and one request adds at most three lines (the request
    line, the error line, the response line). *)
Theorem output_only_grows (cfg : Config) (host : Host) (routing : Routing)
    (req : Request) (clk : Clock) (out : Stdout) :
  exists added,
    (handle_request cfg host routing req clk out).2 = out ++ added
    /\ (length added <= 3)%nat.
Proof.
  unfold handle_request.
  destruct (dispatch_request cfg host routing
              (before_request (t_before clk) req) clk out) as [r o] eqn:E.
  rewrite after_request_log.
  assert (Hmid : exists mid, o = out ++ mid /\ (length mid <= 2)%nat).
  { destruct routing as [e | error | error | error].
    - unfold dispatch_request in E.
      pose proof (call_view_output cfg host e
                    (before_request (t_before clk) req) clk out) as Hv.
      destruct (call_view cfg host e (before_request (t_before clk) req) clk out)
        as [[resp | err] o1]; cbn [snd] in Hv; subst o1.
      + inversion E; subst. eexists. split; [reflexivity | simpl; lia].
      + unfold handle_exception, print in E. inversion E; subst.
        eexists [_; _].
        split; [rewrite <- app_assoc; reflexivity | simpl; lia].
    - inversion E; subst. exists []. split; [now rewrite app_nil_r | simpl; lia].
    - inversion E; subst. exists []. split; [now rewrite app_nil_r | simpl; lia].
    - unfold dispatch_request, handle_exception, print in E. inversion E; subst.
      eexists [_]. split; [reflexivity | simpl; lia]. }
  destruct Hmid as (mid & -> & Hlen).
  case_decide.
  - eexists. rewrite <- app_assoc. split; [reflexivity |].
    rewrite length_app. simpl. lia.
  - exists mid. split; [reflexivity | lia].
Qed.

(** ** Status codes and bodies of the cycle *)


(** X8: the body agrees with the status.  A response that is not a 200
    carries its own status under [status_code], the matching [error] title, a
    [message] and the timestamp; a 200 response has neither an [error] nor a
    [status_code] field. *)
Theorem body_agrees_with_status (cfg : Config) (host : Host)
    (routing : Routing) (req : Request) (clk : Clock) (out : Stdout) :
  let response := (handle_request cfg host routing req clk out).1 in
  if status_code response =? 200
  then jget "error" (body response) = None
       /\ jget "status_code" (body response) = None
  else jget "status_code" (body response) = Some (JInt (status_code response))
       /\ jget "error" (body response)
          = Some (JStr (if status_code response =? 404 then "Not Found"
                        else "Internal Server Error"))
       /\ is_Some (jget "message" (body response))
       /\ jget "timestamp" (body response)
          = Some (JStr (timestamp (utcnow clk)))
       /\ jkeys (body response)
          = ["error"; "message"; "status_code"; "timestamp"]
            ++ (if status_code response =? 404
                then ["available_endpoints"] else []).
Proof.
  cbn zeta.
  destruct routing as [e | error | error | error]; [destruct e | | |];
    try (cbn; repeat split; eauto; fail).
  unfold handle_request, dispatch_request, call_view, info.
  destruct (Flask_version host); cbn; repeat split; eauto.
Qed.

(** X9: outside development the catch-all handler gives nothing of the
    exception away: two different exceptions get the same response, body,
    status and headers, also after the response hook; they differ only in
    the output. *)
Theorem handle_exception_hides_error (cfg : Config) (error1 error2 : Py.exn)
    (req : Request) (clk : Clock) (out1 out2 : Stdout) :
  FLASK_ENV cfg <> "development" ->
  let caught1 := handle_exception cfg error1 (utcnow clk) out1 in
  let caught2 := handle_exception cfg error2 (utcnow clk) out2 in
  caught1.1 = caught2.1
  /\ (after_request cfg req (t_after clk) caught1.1 caught1.2).1
     = (after_request cfg req (t_after clk) caught2.1 caught2.2).1
  /\ caught1.2 = out1 ++ ["[App2] Error: " +:+ Py.str_exn error1].
Proof.
  intros Henv. cbn zeta. unfold handle_exception; cbn [fst snd].
  destruct (String.eqb_spec (FLASK_ENV cfg) "development") as [E | _];
    [contradiction |].
  repeat split.
Qed.

Lemma handle_exception_hides_error_witness :
  (handle_exception (example_cfg "production")
     (Py.Exception "disk full") (utcnow example_clock) []).1
  = (handle_exception (example_cfg "production")
       (Py.Exception "division by zero") (utcnow example_clock) []).1.
Proof.
  destruct (handle_exception_hides_error (example_cfg "production")
              (Py.Exception "disk full") (Py.Exception "division by zero")
              (example_request "GET" "/status") example_clock [] [])
    as (H & _).
  - discriminate.
  - exact H.
Defined.

(** X10: every endpoint the root document lists is also in the list the 404
    handler offers, as method, a space and the path; the converse fails:
    the 404 handler offers "GET /ping", which the root document leaves out. *)
Theorem home_endpoints_in_not_found_list (req : Request) (error : Py.exn)
    (utcnow1 utcnow2 : Datetime.t) (out : Stdout) :
  exists document descriptors entries,
    (home req utcnow1 out).1 = Py.Return (jsonify document)
    /\ jget "endpoints" document = Some (JList descriptors)
    /\ jget "available_endpoints" (body (not_found error req utcnow2))
       = Some (JList entries)
    /\ Forall (fun d => exists m p,
                 jget "method" d = Some (JStr m)
                 /\ jget "path" d = Some (JStr p)
                 /\ In (JStr (m +:+ " " +:+ p)) entries) descriptors
    /\ In (JStr "GET /ping") entries
    /\ Forall (fun d => jget "path" d <> Some (JStr "/ping")) descriptors.
Proof.
  do 3 eexists. split; [reflexivity |]. split; [reflexivity |].
  split; [reflexivity |]. split; [| split].
  - repeat constructor; do 2 eexists;
      (split; [reflexivity | split; [reflexivity |]]); cbn; tauto.
  - cbn; tauto.
  - repeat constructor; cbn; discriminate.
Qed.

(** ** Timestamps and response times *)

Lemma length_append (a b : string) :
  String.length (a +:+ b) = (String.length a + String.length b)%nat.
Proof.
  induction a as [| c a IH]; [reflexivity |].
  rewrite append_cons. cbn [String.length]. rewrite IH. reflexivity.
Qed.

Lemma length_zpad (w : nat) (n : Z) : String.length (Datetime.zpad w n) = w.
Proof.
  revert n. induction w as [| w IH]; intros n; [reflexivity |].
  cbn [Datetime.zpad]. rewrite length_append, IH. cbn [String.length]. lia.
Qed.

(** X11: a timestamp has one of two lengths: 20 characters, to the second,
    when the microsecond field of the clock reading is zero, and 27
    characters, to the microsecond, otherwise. *)
Theorem timestamp_length (dt : Datetime.t) :
  String.length (timestamp dt)
  = if Datetime.microsecond dt =? 0 then 20%nat else 27%nat.
Proof.
  unfold timestamp, Datetime.isoformat.
  destruct (Datetime.microsecond dt =? 0);
    rewrite !length_append, !length_zpad; reflexivity.
Qed.

Lemma round_half_even_comp (x y : Q) :
  (x == y)%Q -> Py.round_half_even x = Py.round_half_even y.
Proof.
  intros H. unfold Py.round_half_even.
  rewrite (Qfloor_comp x y H).
  assert (E : (x - inject_Z (Qfloor y) == y - inject_Z (Qfloor y))%Q)
    by (rewrite H; reflexivity).
  rewrite (Qcompare_comp _ _ E (1 # 2) (1 # 2) (Qeq_refl _)). reflexivity.
Qed.

Lemma format_3f_negative (x : Q) :
  (x < 0)%Q -> Py.format_3f x = "-" +:+ Py.format_3f (- x).
Proof.
  intros Hx. unfold Py.format_3f.
  assert (E : Py.round_half_even (Qabs (- x) * 1000)
              = Py.round_half_even (Qabs x * 1000)).
  { apply round_half_even_comp. rewrite Qabs_opp. reflexivity. }
  rewrite E.
  assert (C1 : (x ?= 0)%Q = Lt) by (apply Qlt_alt; exact Hx).
  assert (C2 : (- x ?= 0)%Q = Gt) by (apply Qgt_alt; lra).
  rewrite C1, C2. rewrite append_nil. reflexivity.
Qed.

(** X12: the response time is not clamped.  When the clock reads earlier at
    the end of the request than at its arrival, the header carries a minus
    sign before the size of the step, also when that rounds to zero. *)
Theorem response_time_negative (cfg : Config) (req : Request) (now t0 : Q)
    (response : Response) (out : Stdout) :
  start_time req = Some t0 ->
  (now < t0)%Q ->
  resp_headers (after_request cfg req now response out).1 !! "X-Response-Time"
  = Some ("-" +:+ Py.format_3f (t0 - now) +:+ "s").
Proof.
  intros Hst Hlt. unfold after_request; cbn [fst resp_headers].
  rewrite Hst, lookup_insert_eq. f_equal.
  rewrite (format_3f_negative (now - t0)) by lra.
  assert (E : Py.format_3f (- (now - t0)) = Py.format_3f (t0 - now)).
  { unfold Py.format_3f.
    assert (En : Py.round_half_even (Qabs (- (now - t0)) * 1000)
                 = Py.round_half_even (Qabs (t0 - now) * 1000)).
    { apply round_half_even_comp.
      assert (Eq : (- (now - t0) == t0 - now)%Q) by ring.
      rewrite Eq. reflexivity. }
    rewrite En.
    assert (C1 : (- (now - t0) ?= 0)%Q = Gt) by (apply Qgt_alt; lra).
    assert (C2 : (t0 - now ?= 0)%Q = Gt) by (apply Qgt_alt; lra).
    rewrite C1, C2. reflexivity. }
  rewrite E, append_assoc. reflexivity.
Qed.

Lemma response_time_negative_witness :
  resp_headers
    (after_request (example_cfg "production")
       {| method := "GET"; path := "/ping"; headers := ∅;
          start_time := Some 10%Q |}
       (99999 # 10000) (jsonify (JDict [])) []).1 !! "X-Response-Time"
  = Some "-0.000s".
Proof.
  rewrite (response_time_negative (example_cfg "production") _
             (99999 # 10000) 10%Q).
  - reflexivity.
  - reflexivity.
  - reflexivity.
Defined.

(** ** Reading a rendered uptime back *)

Section ReadBack.

Lemma read_digits (u : Decimal.uint) (tail : string) (acc total : Z) :
  read_uptime (NilEmpty.string_of_uint u +:+ tail) acc total
  = read_uptime tail (uint_acc u acc) total.
Proof.
  revert acc. induction u; intros acc; cbn [NilEmpty.string_of_uint uint_acc];
    rewrite ?append_nil, ?append_cons; try reflexivity;
    cbn [read_uptime]; apply IHu.
Qed.

Lemma uint_acc_pos (u : Decimal.uint) (acc : positive) :
  uint_acc u (Z.pos acc) = Z.pos (Pos.of_uint_acc u acc).
Proof.
  revert acc. induction u; intros acc; cbn [uint_acc Pos.of_uint_acc];
    try reflexivity;
    match goal with
    | |- uint_acc _ ?a = Z.pos (Pos.of_uint_acc _ ?b) =>
        replace a with (Z.pos b) by lia; apply IHu
    end.
Qed.

Lemma uint_acc_0 (u : Decimal.uint) :
  uint_acc u 0 = Z.of_N (Pos.of_uint u).
Proof.
  induction u; cbn [uint_acc Pos.of_uint]; try reflexivity;
    try exact IHu;
    match goal with
    | |- uint_acc _ ?a = Z.of_N (N.pos (Pos.of_uint_acc _ ?b)) =>
        change a with (Z.pos b); apply uint_acc_pos
    end.
Qed.

Lemma read_str (v : Z) (tail : string) (total : Z) :
  0 <= v ->
  read_uptime (Py.str v +:+ tail) 0 total = read_uptime tail v total.
Proof.
  intros Hv. unfold Py.str. destruct v as [| p | p]; [reflexivity | | lia].
  change (NilZero.string_of_int (Z.to_int (Z.pos p)))
    with (NilZero.string_of_uint (Pos.to_uint p)).
  assert (E : NilZero.string_of_uint (Pos.to_uint p)
              = NilEmpty.string_of_uint (Pos.to_uint p)).
  { pose proof (DecimalPos.Unsigned.of_to p) as Hp.
    destruct (Pos.to_uint p); [discriminate Hp | ..]; reflexivity. }
  rewrite E, read_digits, uint_acc_0, DecimalPos.Unsigned.of_to. reflexivity.
Qed.

Lemma read_unit (v : Z) (u : ascii) (w : Z) (tail : string) (total : Z) :
  0 <= v -> is_digit u = false -> Ascii.eqb u " " = false ->
  unit_seconds u = Some w ->
  read_uptime (Py.str v +:+ String u tail) 0 total
  = read_uptime tail 0 (total + v * w).
Proof.
  intros Hv Hd Hs Hu. rewrite read_str by exact Hv.
  cbn [read_uptime]. rewrite Hd, Hs, Hu. reflexivity.
Qed.

Lemma read_space (tail : string) (acc total : Z) :
  read_uptime (String " " tail) acc total = read_uptime tail acc total.
Proof. reflexivity. Qed.

Lemma read_parts (days hours minutes secs : Z) :
  0 <= days -> 0 <= hours -> 0 <= minutes -> 0 <= secs ->
  read_uptime
    (Py.join " " (format_uptime_parts (days, hours, minutes, secs))) 0 0
  = Some (days * 86400 + hours * 3600 + minutes * 60 + secs).
Proof.
  intros Hd Hh Hm Hs. unfold format_uptime_parts, Py.join.
  destruct (Z.gtb_spec days 0); destruct (Z.gtb_spec hours 0);
    destruct (Z.gtb_spec minutes 0);
    cbn [app String.concat];
    rewrite ?append_assoc, ?append_cons, ?append_nil;
    repeat (erewrite read_unit;
              [ | assumption | reflexivity | reflexivity | reflexivity ];
            rewrite ?read_space);
    cbn [read_uptime]; f_equal; lia.
Qed.

Lemma read_format_uptime (seconds : Q) :
  (0 <= seconds)%Q ->
  read_uptime (format_uptime seconds) 0 0 = Some (Qfloor seconds).
Proof.
  intros Hs. unfold format_uptime. rewrite format_uptime_units_floor.
  assert (Hn : 0 <= Qfloor seconds).
  { change 0 with (Qfloor 0). apply Qfloor_resp_le. exact Hs. }
  pose proof (decompose_bounds (Qfloor seconds) Hn) as Hb.
  pose proof (decompose_sum (Qfloor seconds)) as Hsum.
  destruct (decompose (Qfloor seconds)) as [[[d h] m] sec].
  rewrite read_parts by lia. f_equal. exact Hsum.
Qed.

End ReadBack.

(** X13: the rendering loses nothing but the fraction of a second: two
    non-negative numbers of seconds are rendered alike exactly when they have
    the same integer part.  In particular different whole numbers of
    seconds never share a rendering, with or without their zero units. *)
Theorem format_uptime_injective (s1 s2 : Q) :
  (0 <= s1)%Q -> (0 <= s2)%Q ->
  (format_uptime s1 = format_uptime s2 <-> Qfloor s1 = Qfloor s2).
Proof.
  intros H1 H2. split; intros H.
  - pose proof (read_format_uptime s1 H1) as R1.
    pose proof (read_format_uptime s2 H2) as R2.
    rewrite H in R1. congruence.
  - unfold format_uptime. rewrite !format_uptime_units_floor, H. reflexivity.
Qed.

Lemma format_uptime_injective_witness :
  format_uptime (7201 # 2) = format_uptime 3600
  /\ format_uptime 3600 <> format_uptime 3660.
Proof.
  pose proof (format_uptime_injective (7201 # 2) 3600
                ltac:(discriminate) ltac:(discriminate)) as Ha.
  pose proof (format_uptime_injective 3600 3660
                ltac:(discriminate) ltac:(discriminate)) as Hb.
  split.
  - apply Ha. reflexivity.
  - intros E. apply Hb in E. discriminate E.
Defined.

(** ** What the configuration reaches *)

(** X14: the environment variable decides the mode by exact comparison.
    Left unset, the service runs as in development and the catch-all handler
    shows the text of the exception; set to anything but the exact word
    "development" (the empty string, another spelling), the text is hidden. *)
Theorem mode_from_environment (environ : gmap string string) (port : Z)
    (start : Q) (error : Py.exn) (utcnow : Datetime.t) (out : Stdout) :
  let cfg := configuration environ port start in
  jget "message" (body (handle_exception cfg error utcnow out).1)
  = Some (JStr match environ !! "FLASK_ENV" with
               | None => Py.str_exn error
               | Some value =>
                   if decide (value = "development") then Py.str_exn error
                   else "Something went wrong"
               end).
Proof.
  cbn. unfold getenv. destruct (environ !! "FLASK_ENV") as [value |]; cbn.
  - destruct (String.eqb_spec value "development"); case_decide;
      congruence.
  - reflexivity.
Qed.



(** X17: in development the last line of the output after a request is the
    response line, and it names the status and the response time that were
    actually sent. *)
Theorem response_line_matches_response (cfg : Config) (host : Host)
    (routing : Routing) (req : Request) (clk : Clock) (out : Stdout) :
  FLASK_ENV cfg = "development" ->
  let sent := handle_request cfg host routing req clk out in
  exists time,
    resp_headers sent.1 !! "X-Response-Time" = Some time
    /\ last sent.2
       = Some ("[App2] Response: " +:+ Py.str (status_code sent.1)
                 +:+ " - " +:+ time).
Proof.
  intros Hdev. cbn zeta. unfold handle_request.
  destruct (dispatch_request cfg host routing
              (before_request (t_before clk) req) clk out) as [r o].
  rewrite after_request_log.
  destruct (decide (FLASK_ENV cfg = "development")); [| contradiction].
  exists (Py.format_3f (t_after clk - t_before clk) +:+ "s"). split.
  - unfold after_request; cbn [fst resp_headers before_request start_time].
    apply lookup_insert_eq.
  - rewrite last_snoc. reflexivity.
Qed.

Lemma response_line_matches_response_witness :
  last (handle_request (example_cfg "development") (example_host None)
          (NoMatch (Py.Exception "404 Not Found"))
          (example_request "POST" "/nothing") example_clock []).2
  = Some "[App2] Response: 404 - 0.012s".
Proof.
  destruct (response_line_matches_response (example_cfg "development")
              (example_host None) (NoMatch (Py.Exception "404 Not Found"))
              (example_request "POST" "/nothing") example_clock [])
    as (time & Ht & Hl).
  - reflexivity.
  - rewrite Hl. vm_compute in Ht. inversion Ht; subst. reflexivity.
Defined.

(** ** The two uptime fields of one document *)

Lemma Qfloor_unique (x : Q) (z : Z) :
  (inject_Z z <= x)%Q -> (x < inject_Z (z + 1))%Q -> Qfloor x = z.
Proof.
  intros Hlo Hhi. apply Z.le_antisymm.
  - assert (H : (inject_Z (Qfloor x) < inject_Z (z + 1))%Q).
    { eapply Qle_lt_trans; [apply Qfloor_le | exact Hhi]. }
    rewrite <- Zlt_Qlt in H. lia.
  - rewrite <- (Qfloor_Z z). apply Qfloor_resp_le. exact Hlo.
Qed.

Lemma round2_rounds_up (x : Q) :
  (199 # 200 < x - inject_Z (Qfloor x))%Q ->
  (Py.round2 x == inject_Z (Qfloor x + 1))%Q.
Proof.
  intros Hfrac.
  pose proof (Qlt_floor x) as Hhi. rewrite inject_Z_plus in Hhi.
  change (inject_Z 1) with 1%Q in Hhi.
  set (f := Qfloor x) in *.
  assert (Hfl : Qfloor (x * 100) = 100 * f + 99).
  { apply Qfloor_unique.
    - rewrite inject_Z_plus, inject_Z_mult.
      change (inject_Z 100) with 100%Q. change (inject_Z 99) with 99%Q. lra.
    - rewrite !inject_Z_plus, inject_Z_mult.
      change (inject_Z 100) with 100%Q. change (inject_Z 99) with 99%Q.
      change (inject_Z 1) with 1%Q. lra. }
  assert (Hr : Py.round_half_even (x * 100) = 100 * f + 100).
  { unfold Py.round_half_even. rewrite Hfl.
    destruct (Qcompare_spec (x * 100 - inject_Z (100 * f + 99)) (1 # 2))
      as [E | E | E]; try lia;
      rewrite inject_Z_plus, inject_Z_mult in E;
      change (inject_Z 100) with 100%Q in E;
      change (inject_Z 99) with 99%Q in E; exfalso; lra. }
  unfold Py.round2. rewrite Hr. rewrite (Qmake_Qdiv _ 100).
  rewrite !inject_Z_plus, inject_Z_mult.
  change (inject_Z 100) with 100%Q. change (inject_Z (Z.pos 100)) with 100%Q.
  change (inject_Z 1) with 1%Q. field.
Qed.

(** X18: the two uptime fields of the status document can disagree by one
    second.  [uptime_seconds] is rounded to the nearest hundredth while the
    rendering truncates: within the last half hundredth of a second the
    number shows the next whole second and the rendering still the current
    one. *)
Theorem status_uptime_fields_disagree (cfg : Config) (host : Host)
    (req : Request) (clk : Clock) (out : Stdout) :
  let uptime := get_uptime cfg (t_view clk) in
  let doc := body (handle_request cfg host (Matched Status) req clk out).1 in
  (0 <= uptime)%Q ->
  (199 # 200 < uptime - inject_Z (Qfloor uptime))%Q ->
  exists number rendering,
    jget "uptime_seconds" doc = Some (JFloat number)
    /\ jget "uptime" doc = Some (JStr rendering)
    /\ (number == inject_Z (Qfloor uptime + 1))%Q
    /\ read_uptime rendering 0 0 = Some (Qfloor uptime).
Proof.
  cbn zeta. intros Hpos Hfrac.
  exists (Py.round2 (get_uptime cfg (t_view clk))),
         (format_uptime (get_uptime cfg (t_view clk))).
  split; [reflexivity | split; [reflexivity | split]].
  - apply round2_rounds_up. exact Hfrac.
  - apply read_format_uptime. exact Hpos.
Qed.

Lemma status_uptime_fields_disagree_witness :
  let clk := {| t_before := 1700000059; t_view := 1700000059996 # 1000;
                utcnow := utcnow example_clock; t_after := 1700000060 |} in
  let doc := body (handle_request (example_cfg "production") (example_host None)
                     (Matched Status) (example_request "GET" "/status")
                     clk []).1 in
  exists number,
    jget "uptime_seconds" doc = Some (JFloat number)
    /\ jget "uptime" doc = Some (JStr "59s")
    /\ (number == 60)%Q.
Proof.
  intros clk doc.
  destruct (status_uptime_fields_disagree (example_cfg "production")
              (example_host None) (example_request "GET" "/status") clk [])
    as (number & rendering & Hn & Hr & Hq & _).
  - subst clk. vm_compute. discriminate.
  - subst clk. vm_compute. reflexivity.
  - exists number. split; [exact Hn |]. split; [reflexivity |].
    rewrite Hq. reflexivity.
Defined.
